(** * ModelChecker: shrinkage warnings for oversized models

    Shallow embedding of [plugins/ModelChecker/ModelChecker.py].

    Numbers.  Shrinkage percentages and bounding-box extents are Python
    numbers.  Every finite float is a rational and Python compares ints and
    floats by value, so they are embedded as [Q] and compared with the
    boolean order of [QArith]; not-a-number is outside the model.

    Host objects.  The scene graph, the container stack, [Message] and the
    QML machinery belong to the host application.  Only the attributes and
    calls that the plug-in reads or performs are represented, each as a
    record field or a state update; a host call that can answer [None] is an
    [option]. *)

From Stdlib Require Import QArith String Ascii List.
From stdpp Require Import gmap strings list fin_maps.

Local Open Scope string_scope.
Local Open Scope list_scope.
Set Warnings "-register-all".

(** ** Module constants *)

Definition SHRINKAGE_THRESHOLD : Q := 1 # 2.
Definition WARNING_SIZE_XY : Q := 150 # 1.
Definition WARNING_SIZE_Z : Q := 100 # 1.

(** Python's [a > b] and [a >= b] on numbers. *)
Definition Qgtb (a b : Q) : bool := negb (Qle_bool a b).
Definition Qgeb (a b : Q) : bool := Qle_bool b a.

(** ** Scene graph *)

Record AxisAlignedBox := mkBox {
  width : Q;
  depth : Q;
  height : Q
}.

(** A scene node as the checker sees it.  [callDecoration] answers [None]
    when no decorator of the node provides the requested function, and
    [getBoundingBox] answers [None] for a node without a bounding box. *)
Record SceneNode := mkNode {
  getName : string;
  isSliceable : option bool;
  getActiveExtruderPosition : option string;
  getBoundingBox : option AxisAlignedBox
}.

#[global] Instance Q_eq_dec : EqDecision Q.
Proof. solve_decision. Defined.

#[global] Instance AxisAlignedBox_eq_dec : EqDecision AxisAlignedBox.
Proof. solve_decision. Defined.

#[global] Instance SceneNode_eq_dec : EqDecision SceneNode.
Proof. solve_decision. Defined.

Inductive SceneTree := Tree (node : SceneNode) (children : list SceneTree).



(** Modelled from the spec: [DepthFirstIterator] is the host's scene
    iterator ([UM.Scene.Iterator.DepthFirstIterator]); it is taken to
    enumerate the root and then, child by child, every descendant. *)
Fixpoint DepthFirstIterator (t : SceneTree) : list SceneNode :=
  match t with
  | Tree n cs => n :: flat_map DepthFirstIterator cs
  end.

(** Truth value of what [callDecoration("isSliceable")] answers. *)
Definition truthy (o : option bool) : bool :=
  match o with Some b => b | None => false end.

(** ** Container stack *)

Record Material := mkMaterial {
  material_shrinkage_percentage : option Q
}.

Record ExtruderStack := mkExtruder {
  material : Material
}.

Record GlobalStack := mkGlobalStack {
  extruders : gmap string ExtruderStack
}.

(** ** Failure *)

(** The exceptions the checker's own code can raise: [KeyError] when a
    dict is indexed with a key it does not hold, [AttributeError] when an
    attribute is read off [None]. *)
Inductive Result (A : Type) :=
  | Ok (a : A)
  | KeyError (key : option string)
  | AttributeError (attribute : string).
Arguments Ok {A} a.
Arguments KeyError {A} key.
Arguments AttributeError {A} attribute.

#[global] Instance Result_ret : MRet Result := fun A a => Ok a.

#[global] Instance Result_bind : MBind Result := fun A B k r =>
  match r with
  | Ok a => k a
  | KeyError key => KeyError key
  | AttributeError attribute => AttributeError attribute
  end.

(** [d[key]] on a dict with string keys. *)
Definition getitem {V} (d : gmap string V) (key : option string) : Result V :=
  match key with
  | Some k => match d !! k with
              | Some v => Ok v
              | None => KeyError key
              end
  | None => KeyError key
  end.

(** ** getMaterialShrinkage *)

Definition shrinkage_or_zero (e : ExtruderStack) : Q :=
  match material_shrinkage_percentage (material e) with
  | None => 0
  | Some shrinkage => shrinkage
  end.

(** The loop over [extruders.items()], one insertion per item. *)
Definition fill_shrinkage (items : list (string * ExtruderStack))
    (material_shrinkage : gmap string Q) : gmap string Q :=
  fold_left (fun acc item => <[item.1 := shrinkage_or_zero item.2]> acc)
            items material_shrinkage.

Definition getMaterialShrinkage (global_container_stack : option GlobalStack)
    : gmap string Q :=
  match global_container_stack with
  | None => ∅
  | Some stack => fill_shrinkage (map_to_list (extruders stack)) ∅
  end.

(** ** sliceableNodes and checkObjectsForShrinkage *)

Definition sliceableNodes (root : SceneTree) : list SceneNode :=
  filter (fun node => truthy (isSliceable node) = true) (DepthFirstIterator root).

Definition too_large (bbox : AxisAlignedBox) : bool :=
  Qgeb (width bbox) WARNING_SIZE_XY
  || Qgeb (depth bbox) WARNING_SIZE_XY
  || Qgeb (height bbox) WARNING_SIZE_Z.

(** What the first attribute read, [bbox.width], makes of the answer of
    [getBoundingBox]. *)
Definition dereference (bbox : option AxisAlignedBox) : Result AxisAlignedBox :=
  match bbox with
  | Some box => Ok box
  | None => AttributeError "width"
  end.

(** The body of the [for] loop, threaded through the remaining nodes. *)
Fixpoint check_loop (material_shrinkage : gmap string Q)
    (nodes : list SceneNode) (warning_nodes : list SceneNode)
    : Result (list SceneNode) :=
  match nodes with
  | [] => Ok warning_nodes
  | node :: rest =>
      let node_extruder_position := getActiveExtruderPosition node in
      shrinkage ← getitem material_shrinkage node_extruder_position;
      if Qgtb shrinkage SHRINKAGE_THRESHOLD then
        let bbox := getBoundingBox node in
        box ← dereference bbox;
        if too_large box
        then check_loop material_shrinkage rest (warning_nodes ++ [node])
        else check_loop material_shrinkage rest warning_nodes
      else check_loop material_shrinkage rest warning_nodes
  end.

Definition checkObjectsForShrinkage (root : SceneTree)
    (global_container_stack : option GlobalStack) : Result (list SceneNode) :=
  let material_shrinkage := getMaterialShrinkage global_container_stack in
  check_loop material_shrinkage (sliceableNodes root) [].

(** ** Messages, the checker object and the host application *)

(** A [UM.Message]: [show] and [hide] switch its visibility, [setText]
    replaces its text. *)
Record Message := mkMessage {
  text : string;
  lifetime : nat;
  title : string;
  visible : bool
}.

Definition Message_show (m : Message) : Message :=
  mkMessage (text m) (lifetime m) (title m) true.

Definition Message_hide (m : Message) : Message :=
  mkMessage (text m) (lifetime m) (title m) false.

Definition Message_setText (new_text : string) (m : Message) : Message :=
  mkMessage new_text (lifetime m) (title m) (visible m).

Record QmlComponent := mkQml {
  qml_file : string
}.

Record ModelChecker := mkChecker {
  _button_view : option QmlComponent;
  _has_warnings : bool;
  _happy_message : Message;
  _caution_message : Message
}.

(** What the checker reads from, and writes to, [Application.getInstance()]:
    the scene, the global container stack, what [createQmlComponent] answers
    for the plug-in's QML file, the components registered so far and the
    lines handed to [Logger.log]. *)
Record Application := mkApp {
  scene_root : SceneTree;
  global_container_stack : option GlobalStack;
  createQmlComponent : option QmlComponent;
  additional_components : list (string * option QmlComponent);
  logged : list (string * string)
}.

Record State := mkState {
  app : Application;
  self : ModelChecker
}.

Definition set_button_view (v : option QmlComponent) (c : ModelChecker) : ModelChecker :=
  mkChecker v (_has_warnings c) (_happy_message c) (_caution_message c).

Definition set_happy_message (m : Message) (c : ModelChecker) : ModelChecker :=
  mkChecker (_button_view c) (_has_warnings c) m (_caution_message c).

Definition set_caution_message (m : Message) (c : ModelChecker) : ModelChecker :=
  mkChecker (_button_view c) (_has_warnings c) (_happy_message c) m.

Definition Logger_log (level line : string) (a : Application) : Application :=
  mkApp (scene_root a) (global_container_stack a) (createQmlComponent a)
        (additional_components a) (logged a ++ [(level, line)]).

Definition addAdditionalComponent (area : string) (component : option QmlComponent)
    (a : Application) : Application :=
  mkApp (scene_root a) (global_container_stack a) (createQmlComponent a)
        (additional_components a ++ [(area, component)]) (logged a).

Definition newline : string := String "010"%char EmptyString.

(** The catalogue entry of the warning, split at its [{model_names}] field;
    the catalogue is taken untranslated. *)
Definition caution_template_before : string :=
  "Some models may not be printed optimal due to object size and chosen material for models: ".

Definition caution_template_after : string :=
  "." +:+ newline +:+
  "Tips that may be useful to improve the print quality:" +:+ newline +:+
  "1) Use rounded corners" +:+ newline +:+
  "2) Turn the fan off (only if the are no tiny details on the model)" +:+ newline +:+
  "3) Use a different material".

Definition format_caution (model_names : string) : string :=
  caution_template_before +:+ model_names +:+ caution_template_after.

(** [__init__]: the state of a freshly constructed checker. *)
Definition init : ModelChecker :=
  mkChecker None false
    (mkMessage
       "The Model Checker did not detect any problems with your model / chosen materials combination."
       5 "Model Checker" false)
    (mkMessage "" 0 "Model Checker Warning" false).

(** ** Methods *)

Definition showWarningMessage (st : State) : State :=
  let st1 := mkState (app st)
               (set_happy_message (Message_hide (_happy_message (self st))) (self st)) in
  mkState (app st1)
    (set_caution_message (Message_show (_caution_message (self st1))) (self st1)).

Definition showHappyMessage (st : State) : State :=
  let st1 := mkState (app st)
               (set_caution_message (Message_hide (_caution_message (self st))) (self st)) in
  mkState (app st1)
    (set_happy_message (Message_show (_happy_message (self st1))) (self st1)).

Definition _createView (st : State) : State :=
  let a1 := Logger_log "d" "Creating model checker view." (app st) in
  let view := createQmlComponent a1 in
  let c1 := set_button_view view (self st) in
  let a2 := addAdditionalComponent "jobSpecsButton" view a1 in
  mkState (Logger_log "d" "Model checker view created." a2) c1.

(** [_onChanged] only re-emits the signal that makes the host poll
    [runChecks] again; it touches neither the checker nor the application. *)
Definition _onChanged (st : State) : State := st.

Definition _pluginsInitialized (st : State) : State := _createView st.

Definition runChecks (st : State) : Result bool * State :=
  match checkObjectsForShrinkage (scene_root (app st))
                                 (global_container_stack (app st)) with
  | KeyError key => (KeyError key, st)
  | AttributeError attribute => (AttributeError attribute, st)
  | Ok [] => (Ok false, st)
  | Ok warning_nodes =>
      let model_names := String.concat ", " (map getName warning_nodes) in
      (Ok true,
       mkState (app st)
         (set_caution_message
            (Message_setText (format_caution model_names)
                             (_caution_message (self st)))
            (self st)))
  end.

Definition showWarnings (st : State) : State :=
  let st1 := match _button_view (self st) with
             | None => _createView st
             | Some _ => st
             end in
  if _has_warnings (self st1)
  then showWarningMessage st1
  else showHappyMessage st1.

(** ** Calls the host can make, and the states they reach *)

Inductive Call :=
  | Call_onChanged
  | Call_pluginsInitialized
  | Call_runChecks
  | Call_showWarnings
  | Call_showWarningMessage
  | Call_showHappyMessage
  | Call_createView
  (** the host edits the scene or switches machine between two calls *)
  | Host_update (root : SceneTree) (stack : option GlobalStack).

Definition host_update (root : SceneTree) (stack : option GlobalStack)
    (a : Application) : Application :=
  mkApp root stack (createQmlComponent a) (additional_components a) (logged a).

(** An exception raised by a call leaves the state as the call had made it
    up to then; the host carries on with the next call. *)
Definition perform (c : Call) (st : State) : State :=
  match c with
  | Call_onChanged => _onChanged st
  | Call_pluginsInitialized => _pluginsInitialized st
  | Call_runChecks => (runChecks st).2
  | Call_showWarnings => showWarnings st
  | Call_showWarningMessage => showWarningMessage st
  | Call_showHappyMessage => showHappyMessage st
  | Call_createView => _createView st
  | Host_update root stack => mkState (host_update root stack (app st)) (self st)
  end.

Definition perform_all (calls : list Call) (st : State) : State :=
  fold_left (fun s c => perform c s) calls st.

(** ** The properties the specification speaks of *)

#[global] Instance Qlt_decision (x y : Q) : Decision (x < y)%Q.
Proof. unfold Qlt. apply _. Defined.

#[global] Instance Qle_decision (x y : Q) : Decision (x <= y)%Q.
Proof. unfold Qle. apply _. Defined.

(** The shrinkage percentage of the material in the extruder a node prints
    with, read off the container stack. *)
Definition node_material_shrinkage (stack : option GlobalStack)
    (node : SceneNode) : option Q :=
  s ← stack;
  position ← getActiveExtruderPosition node;
  extruder ← extruders s !! position;
  material_shrinkage_percentage (material extruder).

Definition shrink_prone (stack : option GlobalStack) (node : SceneNode) : Prop :=
  ∃ shrinkage, node_material_shrinkage stack node = Some shrinkage
               ∧ (SHRINKAGE_THRESHOLD < shrinkage)%Q.

Definition reaches_threshold (box : AxisAlignedBox) : Prop :=
  (WARNING_SIZE_XY <= width box)%Q
  ∨ (WARNING_SIZE_XY <= depth box)%Q
  ∨ (WARNING_SIZE_Z <= height box)%Q.

Definition oversized (node : SceneNode) : Prop :=
  ∃ box, getBoundingBox node = Some box ∧ reaches_threshold box.

Definition has_bounding_box (node : SceneNode) : Prop :=
  is_Some (getBoundingBox node).

Definition sliceable (node : SceneNode) : Prop :=
  isSliceable node = Some true.

Definition warning_node (stack : option GlobalStack) (node : SceneNode) : Prop :=
  sliceable node ∧ shrink_prone stack node ∧ oversized node.

(** The node's extruder position is a key of the shrinkage dict. *)
Definition position_known (material_shrinkage : gmap string Q)
    (node : SceneNode) : Prop :=
  ∃ position, getActiveExtruderPosition node = Some position
              ∧ position ∈ dom material_shrinkage.

#[global] Instance shrink_prone_decision stack node : Decision (shrink_prone stack node).
Proof.
  unfold shrink_prone.
  destruct (node_material_shrinkage stack node) as [s|].
  - destruct (decide (SHRINKAGE_THRESHOLD < s)%Q) as [H|H].
    + left. exists s. split; [reflexivity | exact H].
    + right. intros (s' & Heq & Hlt). injection Heq as <-. exact (H Hlt).
  - right. intros (s' & Heq & _). discriminate Heq.
Defined.

#[global] Instance reaches_threshold_decision box : Decision (reaches_threshold box).
Proof. unfold reaches_threshold. apply _. Defined.

#[global] Instance oversized_decision node : Decision (oversized node).
Proof.
  unfold oversized.
  destruct (getBoundingBox node) as [box|].
  - destruct (decide (reaches_threshold box)) as [H|H].
    + left. exists box. split; [reflexivity | exact H].
    + right. intros (box' & Heq & Hbig). injection Heq as <-. exact (H Hbig).
  - right. intros (box' & Heq & _). discriminate Heq.
Defined.

#[global] Instance has_bounding_box_decision node : Decision (has_bounding_box node).
Proof. unfold has_bounding_box. apply _. Defined.

#[global] Instance sliceable_decision node : Decision (sliceable node).
Proof. unfold sliceable. apply _. Defined.

#[global] Instance warning_node_decision stack node : Decision (warning_node stack node).
Proof. unfold warning_node. apply _. Defined.

#[global] Instance position_known_decision ms node : Decision (position_known ms node).
Proof.
  unfold position_known.
  destruct (getActiveExtruderPosition node) as [p|].
  - destruct (decide (p ∈ dom ms)) as [H|H].
    + left. exists p. split; [reflexivity | exact H].
    + right. intros (p' & Heq & Hin). injection Heq as <-. exact (H Hin).
  - right. intros (p' & Heq & _). discriminate Heq.
Defined.

(** Whether the lookup for a node succeeds with a shrinkage above the
    threshold, so that the loop body goes on to read its bounding box. *)
Definition exceeds (material_shrinkage : gmap string Q) (node : SceneNode) : bool :=
  match getitem material_shrinkage (getActiveExtruderPosition node) with
  | Ok shrinkage => Qgtb shrinkage SHRINKAGE_THRESHOLD
  | _ => false
  end.

(** Whether the loop body appends a node. *)
Definition flags (material_shrinkage : gmap string Q) (node : SceneNode) : bool :=
  exceeds material_shrinkage node
  && match getBoundingBox node with
     | Some box => too_large box
     | None => false
     end.

(** The loop body can read the bounding box of the node if it has to. *)
Definition box_readable (material_shrinkage : gmap string Q)
    (node : SceneNode) : Prop :=
  exceeds material_shrinkage node = true → has_bounding_box node.

#[global] Instance box_readable_decision ms node : Decision (box_readable ms node).
Proof. unfold box_readable. apply _. Defined.

(** The loop body gets through the node without raising. *)
Definition examinable (material_shrinkage : gmap string Q)
    (node : SceneNode) : Prop :=
  position_known material_shrinkage node ∧ box_readable material_shrinkage node.

#[global] Instance examinable_decision ms node : Decision (examinable ms node).
Proof. unfold examinable. apply _. Defined.

Definition both_visible (st : State) : Prop :=
  visible (_happy_message (self st)) = true
  ∧ visible (_caution_message (self st)) = true.

(** Two nodes the check cannot tell apart unless one of them is sliceable. *)
Definition same_unless_unsliceable (node node' : SceneNode) : Prop :=
  node = node' ∨ (¬ sliceable node ∧ ¬ sliceable node').

#[global] Instance same_unless_unsliceable_decision node node' :
  Decision (same_unless_unsliceable node node').
Proof. unfold same_unless_unsliceable. apply _. Defined.

(** [node'] prints with the same extruder as [node] and is at least as
    large in every direction. *)
Definition no_smaller (box box' : AxisAlignedBox) : Prop :=
  (width box <= width box')%Q
  ∧ (depth box <= depth box')%Q
  ∧ (height box <= height box')%Q.

Definition grown (node node' : SceneNode) : Prop :=
  getActiveExtruderPosition node' = getActiveExtruderPosition node
  ∧ ∃ box box', getBoundingBox node = Some box
                ∧ getBoundingBox node' = Some box'
                ∧ no_smaller box box'.

#[global] Instance no_smaller_decision box box' : Decision (no_smaller box box').
Proof. unfold no_smaller. apply _. Defined.

#[global] Instance grown_decision node node' : Decision (grown node node').
Proof.
  unfold grown.
  destruct (getBoundingBox node) as [box|], (getBoundingBox node') as [box'|].
  - destruct (decide (getActiveExtruderPosition node'
                      = getActiveExtruderPosition node ∧ no_smaller box box'))
      as [[Hp Hb]|H].
    + left. split; [exact Hp|]. by exists box, box'.
    + right. intros (Hp & b & b' & [= <-] & [= <-] & Hb). by apply H.
  - right. intros (_ & b & b' & _ & Heq & _). discriminate Heq.
  - right. intros (_ & b & b' & Heq & _). discriminate Heq.
  - right. intros (_ & b & b' & Heq & _). discriminate Heq.
Defined.

Definition is_host_update (c : Call) : bool :=
  match c with Host_update _ _ => true | _ => false end.

Definition is_showWarningMessage (c : Call) : bool :=
  match c with Call_showWarningMessage => true | _ => false end.

(** The parts of the two messages that [__init__] fixes, and the two shapes
    the caution text can have. *)
Definition messages_as_built (st : State) : Prop :=
  text (_happy_message (self st)) = text (_happy_message init)
  ∧ lifetime (_happy_message (self st)) = 5%nat
  ∧ title (_happy_message (self st)) = "Model Checker"
  ∧ lifetime (_caution_message (self st)) = 0%nat
  ∧ title (_caution_message (self st)) = "Model Checker Warning"
  ∧ (text (_caution_message (self st)) = ""
     ∨ ∃ warning_nodes : list SceneNode,
         warning_nodes ≠ []
         ∧ text (_caution_message (self st))
             = format_caution (String.concat ", " (map getName warning_nodes))).

(** ** Positions in the scene and the trace of one check *)















(** ** Sample scenes and stacks *)

Definition big_box : AxisAlignedBox := mkBox (200 # 1) (20 # 1) (20 # 1).
Definition tall_box : AxisAlignedBox := mkBox (20 # 1) (20 # 1) (100 # 1).
Definition small_box : AxisAlignedBox := mkBox (20 # 1) (20 # 1) (20 # 1).

Definition root_node : SceneNode := mkNode "Root" None None (Some (mkBox 0 0 0)).
Definition cube : SceneNode := mkNode "cube" (Some true) (Some "0") (Some big_box).
Definition tower : SceneNode := mkNode "tower" (Some true) (Some "1") (Some tall_box).
Definition pebble : SceneNode := mkNode "pebble" (Some true) (Some "0") (Some small_box).
Definition plate : SceneNode := mkNode "plate" (Some false) (Some "0") (Some big_box).
Definition ghost : SceneNode := mkNode "ghost" None (Some "7") (Some big_box).
(** A sliceable node for which [getBoundingBox] answers [None]. *)
Definition hollow : SceneNode := mkNode "hollow" (Some true) (Some "0") None.

Definition abs_like : ExtruderStack := mkExtruder (mkMaterial (Some (7 # 10))).
Definition pla_like : ExtruderStack := mkExtruder (mkMaterial (Some (1 # 5))).
Definition at_threshold : ExtruderStack := mkExtruder (mkMaterial (Some (1 # 2))).
Definition unspecified : ExtruderStack := mkExtruder (mkMaterial None).

Definition one_cube : SceneTree := Tree root_node [Tree cube []].

Definition one_hollow : SceneTree := Tree root_node [Tree hollow []].


Definition workshop : SceneTree :=
  Tree root_node
    [Tree plate [Tree cube []; Tree pebble []];
     Tree ghost [];
     Tree tower []].

Definition stack_abs : GlobalStack :=
  mkGlobalStack {[ "0" := abs_like ]}.


Definition stack_two : GlobalStack :=
  mkGlobalStack (<["0" := abs_like]> (<["1" := abs_like]> ∅)).

Definition stack_mild : GlobalStack :=
  mkGlobalStack (<["0" := pla_like]> (<["1" := unspecified]> ∅)).

(** The workshop with its two unsliceable nodes swapped for other ones. *)
Definition workshop_disguised : SceneTree :=
  Tree root_node
    [Tree (mkNode "tray" None (Some "9") None) [Tree cube []; Tree pebble []];
     Tree (mkNode "ghost" (Some false) None (Some tall_box)) [];
     Tree tower []].

(** A scene without any sliceable node. *)
Definition bare_scene : SceneTree := Tree root_node [Tree plate []; Tree ghost []].

(** The workshop after the pebble has been scaled up. *)
Definition boulder : SceneNode := mkNode "pebble" (Some true) (Some "0") (Some big_box).

Definition workshop_grown : SceneTree :=
  Tree root_node
    [Tree plate [Tree cube []; Tree boulder []];
     Tree ghost [];
     Tree tower []].

Definition blank_app (root : SceneTree) (stack : option GlobalStack) : Application :=
  mkApp root stack (Some (mkQml "ModelChecker.qml")) [] [].

Definition fresh (root : SceneTree) (stack : option GlobalStack) : State :=
  mkState (blank_app root stack) init.

(** An application in which the QML component cannot be created. *)
Definition headless_app (root : SceneTree) (stack : option GlobalStack) : Application :=
  mkApp root stack None [] [].

(** * Proofs *)

(** ** Number comparisons *)

Lemma Qgtb_lt (a b : Q) : Qgtb a b = true ↔ (b < a)%Q.
Proof.
  unfold Qgtb. rewrite negb_true_iff. split.
  - intros H. apply Qnot_le_lt. intros Hle.
    apply Qle_bool_iff in Hle. congruence.
  - intros H. destruct (Qle_bool a b) eqn:E; [|reflexivity].
    apply Qle_bool_iff in E. exfalso. exact (Qlt_not_le _ _ H E).
Qed.

Lemma Qgeb_le (a b : Q) : Qgeb a b = true ↔ (b <= a)%Q.
Proof. unfold Qgeb. apply Qle_bool_iff. Qed.

Lemma too_large_reaches_threshold (box : AxisAlignedBox) :
  too_large box = true ↔ reaches_threshold box.
Proof.
  unfold too_large, reaches_threshold.
  rewrite !orb_true_iff, !Qgeb_le. tauto.
Qed.

(** ** The shrinkage dict *)

Lemma fill_shrinkage_lookup (items : list (string * ExtruderStack)) :
  ∀ (acc : gmap string Q) (k : string),
    NoDup items.*1 →
    fill_shrinkage items acc !! k =
      match (list_to_map items : gmap string ExtruderStack) !! k with
      | Some e => Some (shrinkage_or_zero e)
      | None => acc !! k
      end.
Proof.
  unfold fill_shrinkage.
  induction items as [|[i e] items IH]; intros acc k Hnd; csimpl in *.
  - done.
  - apply NoDup_cons in Hnd as [Hi Hnd].
    rewrite IH by done.
    destruct (decide (i = k)) as [->|Hne].
    + rewrite (lookup_insert_eq (list_to_map items)).
      rewrite (not_elem_of_list_to_map_1 items k Hi).
      by rewrite lookup_insert_eq.
    + rewrite (lookup_insert_ne (list_to_map items) i k) by done.
      destruct (list_to_map items !! k); [done|].
      by rewrite lookup_insert_ne.
Qed.

Lemma getMaterialShrinkage_fmap (stack : GlobalStack) :
  getMaterialShrinkage (Some stack) = shrinkage_or_zero <$> extruders stack.
Proof.
  apply map_eq. intros k. unfold getMaterialShrinkage.
  rewrite fill_shrinkage_lookup by apply NoDup_fst_map_to_list.
  rewrite list_to_map_to_list, lookup_fmap, lookup_empty.
  by destruct (extruders stack !! k).
Qed.

Lemma getMaterialShrinkage_lookup (stack : option GlobalStack) (k : string) :
  getMaterialShrinkage stack !! k =
    s ← stack; shrinkage_or_zero <$> extruders s !! k.
Proof.
  destruct stack as [s|].
  - by rewrite getMaterialShrinkage_fmap, lookup_fmap.
  - apply lookup_empty.
Qed.

(** ** Dict indexing *)

Lemma getitem_Ok {V} (d : gmap string V) (key : option string) (v : V) :
  getitem d key = Ok v ↔ ∃ k, key = Some k ∧ d !! k = Some v.
Proof.
  unfold getitem. split.
  - destruct key as [k|]; [|discriminate].
    destruct (d !! k) as [v'|] eqn:E; [|discriminate].
    intros [= ->]. eauto.
  - intros (k & -> & ->). reflexivity.
Qed.

Lemma getitem_KeyError {V} (d : gmap string V) (key key' : option string) :
  getitem d key = KeyError key' → key' = key.
Proof.
  unfold getitem. destruct key as [k|]; [destruct (d !! k)|]; congruence.
Qed.

Lemma position_known_getitem (ms : gmap string Q) (node : SceneNode) :
  position_known ms node ↔
  ∃ s, getitem ms (getActiveExtruderPosition node) = Ok s.
Proof.
  unfold position_known. split.
  - intros (p & Hp & Hin). apply elem_of_dom in Hin as [s Hs].
    exists s. apply getitem_Ok. eauto.
  - intros (s & Hs). apply getitem_Ok in Hs as (k & Hk & Hl).
    exists k. split; [done|]. apply elem_of_dom. eauto.
Qed.

Lemma getitem_no_AttributeError {V} (d : gmap string V)
    (key : option string) (attribute : string) :
  getitem d key ≠ AttributeError attribute.
Proof.
  unfold getitem. destruct key as [k|]; [destruct (d !! k)|]; discriminate.
Qed.

Lemma position_unknown_getitem (ms : gmap string Q) (node : SceneNode) :
  ¬ position_known ms node →
  getitem ms (getActiveExtruderPosition node)
    = KeyError (getActiveExtruderPosition node).
Proof.
  intros H.
  destruct (getitem ms (getActiveExtruderPosition node)) as [s|k|a] eqn:E.
  - exfalso. apply H, position_known_getitem. eauto.
  - by rewrite (getitem_KeyError _ _ _ E).
  - by apply getitem_no_AttributeError in E.
Qed.

(** ** The loop of checkObjectsForShrinkage *)

Lemma exceeds_shrink_prone (stack : option GlobalStack) (node : SceneNode) :
  exceeds (getMaterialShrinkage stack) node = true ↔ shrink_prone stack node.
Proof.
  unfold exceeds, shrink_prone, node_material_shrinkage, getitem.
  destruct (getActiveExtruderPosition node) as [k|].
  - rewrite getMaterialShrinkage_lookup.
    destruct stack as [s|]; simpl; [|split; [done | by intros (? & ? & _)]].
    destruct (extruders s !! k) as [e|]; simpl;
      [|split; [done | by intros (? & ? & _)]].
    unfold shrinkage_or_zero.
    destruct (material_shrinkage_percentage (material e)) as [sh|].
    + rewrite Qgtb_lt. split.
      * intros Hlt. by exists sh.
      * by intros (sh' & [= <-] & Hlt).
    + split; [done | by intros (? & ? & _)].
  - destruct stack; (split; [done | by intros (? & ? & _)]).
Qed.

Lemma flags_warning (stack : option GlobalStack) (node : SceneNode) :
  flags (getMaterialShrinkage stack) node = true ↔
  shrink_prone stack node ∧ oversized node.
Proof.
  unfold flags, oversized. rewrite andb_true_iff, exceeds_shrink_prone.
  destruct (getBoundingBox node) as [box|].
  - rewrite too_large_reaches_threshold. split.
    + intros [Hs Hbig]. split; [exact Hs|]. by exists box.
    + intros [Hs (box' & [= <-] & Hbig)]. by split.
  - split; [by intros [_ ?] | by intros [_ (box' & ? & _)]].
Qed.

Lemma box_unreadable (ms : gmap string Q) (node : SceneNode) :
  ¬ box_readable ms node ↔
  exceeds ms node = true ∧ getBoundingBox node = None.
Proof.
  unfold box_readable, has_bounding_box. split.
  - intros Hnot. destruct (exceeds ms node) eqn:He.
    + split; [done|]. destruct (getBoundingBox node) as [box|]; [|done].
      exfalso. apply Hnot. intros _. by exists box.
    + exfalso. by apply Hnot.
  - intros [He Hbox] Hread. rewrite Hbox in Hread.
    destruct (Hread He) as [box Hsome]. discriminate Hsome.
Qed.

Lemma check_loop_known (ms : gmap string Q) (nodes : list SceneNode) :
  ∀ acc, Forall (examinable ms) nodes →
    check_loop ms nodes acc
      = Ok (acc ++ filter (λ node, flags ms node = true) nodes).
Proof.
  induction nodes as [|node rest IH]; intros acc Hall.
  - simpl. by rewrite app_nil_r.
  - apply Forall_cons in Hall as [[Hnode Hbox] Hrest].
    apply position_known_getitem in Hnode as [s Hs].
    assert (He : exceeds ms node = Qgtb s SHRINKAGE_THRESHOLD)
      by (unfold exceeds; by rewrite Hs).
    simpl. rewrite Hs. simpl.
    destruct (Qgtb s SHRINKAGE_THRESHOLD).
    + destruct (Hbox He) as [box Hsome]. rewrite Hsome. simpl.
      assert (Hf : flags ms node = too_large box)
        by (unfold flags; by rewrite He, Hsome).
      destruct (too_large box); rewrite IH by done.
      * rewrite filter_cons_True by done. by rewrite <- app_assoc.
      * rewrite filter_cons_False by congruence. done.
    + assert (Hf : flags ms node = false) by (unfold flags; by rewrite He).
      rewrite IH by done. rewrite filter_cons_False by congruence. done.
Qed.

Lemma check_loop_app (ms : gmap string Q) (l1 l2 : list SceneNode) :
  ∀ acc, check_loop ms (l1 ++ l2) acc
         = warning_nodes ← check_loop ms l1 acc; check_loop ms l2 warning_nodes.
Proof.
  induction l1 as [|node rest IH]; intros acc; [done|].
  simpl. destruct (getitem ms (getActiveExtruderPosition node)) as [s|k|a];
    [|done|done].
  simpl. destruct (Qgtb s SHRINKAGE_THRESHOLD); [|apply IH].
  destruct (getBoundingBox node) as [box|]; [|done].
  simpl. destruct (too_large box); apply IH.
Qed.

Lemma check_loop_KeyError (ms : gmap string Q)
    (before after : list SceneNode) (culprit : SceneNode) (acc : list SceneNode) :
  Forall (examinable ms) before →
  ¬ position_known ms culprit →
  check_loop ms (before ++ culprit :: after) acc
    = KeyError (getActiveExtruderPosition culprit).
Proof.
  intros Hb Hc. rewrite check_loop_app, (check_loop_known _ _ _ Hb). simpl.
  by rewrite (position_unknown_getitem _ _ Hc).
Qed.

Lemma check_loop_AttributeError (ms : gmap string Q)
    (before after : list SceneNode) (culprit : SceneNode) (acc : list SceneNode) :
  Forall (examinable ms) before →
  position_known ms culprit →
  ¬ box_readable ms culprit →
  check_loop ms (before ++ culprit :: after) acc = AttributeError "width".
Proof.
  intros Hb Hk Hc. rewrite check_loop_app, (check_loop_known _ _ _ Hb). simpl.
  apply position_known_getitem in Hk as [s Hs].
  apply box_unreadable in Hc as [He Hnone].
  unfold exceeds in He. rewrite Hs in He.
  by rewrite Hs; simpl; rewrite He, Hnone.
Qed.

Lemma first_failure_split {A} (P : A → Prop) `{!∀ x, Decision (P x)} (l : list A) :
  ¬ Forall P l →
  ∃ before x after, l = before ++ x :: after ∧ Forall P before ∧ ¬ P x.
Proof.
  induction l as [|y l IH]; intros Hnot.
  - exfalso. apply Hnot. constructor.
  - destruct (decide (P y)) as [Hy|Hy].
    + destruct IH as (before & x & after & -> & Hb & Hx).
      { intros Hl. apply Hnot. by constructor. }
      exists (y :: before), x, after. split; [done|]. split; [by constructor | done].
    + exists [], y, l. split; [done|]. split; [constructor | done].
Qed.

Lemma check_loop_raises (ms : gmap string Q) (nodes acc : list SceneNode) :
  ¬ Forall (examinable ms) nodes →
  ∃ before culprit after,
    nodes = before ++ culprit :: after
    ∧ Forall (examinable ms) before
    ∧ ((¬ position_known ms culprit
        ∧ check_loop ms nodes acc = KeyError (getActiveExtruderPosition culprit))
       ∨ (position_known ms culprit
          ∧ exceeds ms culprit = true ∧ getBoundingBox culprit = None
          ∧ check_loop ms nodes acc = AttributeError "width")).
Proof.
  intros Hnot.
  destruct (first_failure_split _ _ Hnot) as (before & culprit & after & -> & Hb & Hc).
  exists before, culprit, after. split; [done|]. split; [done|].
  destruct (decide (position_known ms culprit)) as [Hk|Hu].
  - right. assert (Hbox : ¬ box_readable ms culprit)
      by (intros Hr; apply Hc; by split).
    split; [done|].
    destruct (proj1 (box_unreadable _ _) Hbox) as [He Hnone].
    split; [done|]. split; [done|]. by apply check_loop_AttributeError.
  - left. split; [done|]. by apply check_loop_KeyError.
Qed.

Lemma check_loop_Ok_examinable (ms : gmap string Q) (nodes acc l : list SceneNode) :
  check_loop ms nodes acc = Ok l → Forall (examinable ms) nodes.
Proof.
  intros Hrun.
  destruct (decide (Forall (examinable ms) nodes)) as [Hall|Hnot]; [exact Hall|].
  destruct (check_loop_raises ms nodes acc Hnot)
    as (b & c & a & _ & _ & [(_ & Hc) | (_ & _ & _ & Hc)]); congruence.
Qed.

Lemma sliceableNodes_spec (root : SceneTree) (node : SceneNode) :
  node ∈ sliceableNodes root ↔ node ∈ DepthFirstIterator root ∧ sliceable node.
Proof.
  unfold sliceableNodes, sliceable. rewrite list_elem_of_filter.
  destruct (isSliceable node) as [[]|]; simpl;
    (split; intros [Hin Hs]; [done || (split; [exact Hin | done]) ..]).
Qed.

Lemma examinable_spec (stack : option GlobalStack) (l : list SceneNode) :
  Forall (examinable (getMaterialShrinkage stack)) l ↔
  Forall (position_known (getMaterialShrinkage stack)) l
  ∧ Forall (λ node, shrink_prone stack node → has_bounding_box node) l.
Proof.
  rewrite <- Forall_and. apply Forall_proper; [|done].
  intros node. unfold examinable, box_readable.
  by rewrite exceeds_shrink_prone.
Qed.

Lemma checkObjectsForShrinkage_known (root : SceneTree) (stack : option GlobalStack) :
  Forall (examinable (getMaterialShrinkage stack)) (sliceableNodes root) →
  checkObjectsForShrinkage root stack
    = Ok (filter (warning_node stack) (DepthFirstIterator root)).
Proof.
  intros Hall. unfold checkObjectsForShrinkage.
  rewrite check_loop_known by done. simpl. f_equal.
  unfold sliceableNodes. rewrite list_filter_filter.
  apply list_filter_iff. intros node.
  rewrite flags_warning. unfold warning_node, sliceable.
  destruct (isSliceable node) as [[]|]; simpl; intuition congruence.
Qed.



Lemma runChecks_result (st : State) :
  (runChecks st).1 =
    warning_nodes ← checkObjectsForShrinkage (scene_root (app st))
                                             (global_container_stack (app st));
    Ok (bool_decide (warning_nodes ≠ [])).
Proof.
  unfold runChecks.
  destruct (checkObjectsForShrinkage _ _) as [[|n l]|k|attribute]; reflexivity.
Qed.

(** The threshold on shrinkage is strict and the thresholds on size are
    not: a shrinkage of exactly 0.5 raises no warning for the cube, and a
    height of exactly 100 is enough for the tower. *)
Lemma thresholds_at_the_boundary :
  checkObjectsForShrinkage one_cube
    (Some (mkGlobalStack {[ "0" := at_threshold ]})) = Ok []
  ∧ too_large tall_box = true
  ∧ too_large small_box = false.
Proof. repeat split; vm_compute; reflexivity. Qed.

(** ** Claims about the check *)

(** C1, as the code has it.  Provided the extruder position of every
    sliceable node is a key of the shrinkage dict and every sliceable node
    whose extruder's material shrinks by more than 0.5 has a bounding box,
    [runChecks] answers [True] exactly when the scene holds a sliceable node
    whose extruder's material shrinks by more than 0.5 and whose bounding box
    is at least 150 wide, 150 deep or 100 high, and answers [False]
    otherwise. *)
Theorem runChecks_true_iff_warning_node (st : State) :
  Forall (position_known (getMaterialShrinkage (global_container_stack (app st))))
         (sliceableNodes (scene_root (app st))) →
  Forall (λ node, shrink_prone (global_container_stack (app st)) node
                  → has_bounding_box node)
         (sliceableNodes (scene_root (app st))) →
  ((runChecks st).1 = Ok true ↔
     ∃ node, node ∈ DepthFirstIterator (scene_root (app st))
             ∧ warning_node (global_container_stack (app st)) node)
  ∧ (¬ (∃ node, node ∈ DepthFirstIterator (scene_root (app st))
                ∧ warning_node (global_container_stack (app st)) node) →
     (runChecks st).1 = Ok false).
Proof.
  intros Hkeys Hboxes.
  assert (Hall := proj2 (examinable_spec _ _) (conj Hkeys Hboxes)).
  rewrite runChecks_result.
  rewrite (checkObjectsForShrinkage_known _ _ Hall). simpl.
  set (l := filter _ _).
  assert (Hl : l ≠ [] ↔
     ∃ node, node ∈ DepthFirstIterator (scene_root (app st))
             ∧ warning_node (global_container_stack (app st)) node).
  { split.
    - intros Hne. destruct l as [|node l'] eqn:E; [done|].
      exists node. assert (Hin : node ∈ l) by (rewrite E; left).
      unfold l in Hin. apply list_elem_of_filter in Hin. tauto.
    - intros (node & Hin & Hw) Hnil.
      assert (Hin' : node ∈ l) by (apply list_elem_of_filter; done).
      rewrite Hnil in Hin'. by apply not_elem_of_nil in Hin'. }
  split.
  - rewrite <- Hl. split.
    + intros [= Hb]. by apply bool_decide_eq_true in Hb.
    + intros Hne. f_equal. by apply bool_decide_eq_true.
  - intros Hno. f_equal. apply bool_decide_eq_false. tauto.
Qed.

Lemma runChecks_true_iff_warning_node_witness :
  Forall (position_known (getMaterialShrinkage (Some stack_two)))
         (sliceableNodes workshop)
  ∧ Forall (λ node, shrink_prone (Some stack_two) node → has_bounding_box node)
           (sliceableNodes workshop)
  ∧ (runChecks (fresh workshop (Some stack_two))).1 = Ok true.
Proof.
  assert (Hkeys : Forall (position_known (getMaterialShrinkage (Some stack_two)))
                         (sliceableNodes workshop)).
  { apply (bool_decide_unpack _). vm_compute. exact I. }
  assert (Hboxes : Forall (λ node, shrink_prone (Some stack_two) node
                                   → has_bounding_box node)
                          (sliceableNodes workshop)).
  { apply (bool_decide_unpack _). vm_compute. exact I. }
  split; [exact Hkeys|]. split; [exact Hboxes|].
  apply (runChecks_true_iff_warning_node (fresh workshop (Some stack_two))
           Hkeys Hboxes).
  exists cube. split.
  - apply (bool_decide_unpack _). vm_compute. exact I.
  - apply (bool_decide_unpack _). vm_compute. exact I.
Defined.

(** C1 as worded fails where the loop raises.  With no global container
    stack and one sliceable model in the scene there is no warning node, yet
    [runChecks] does not answer [False]: the lookup raises [KeyError].  With
    a shrinking material and a sliceable node without bounding box there is
    no warning node either, and reading the width raises
    [AttributeError]. *)
Lemma runChecks_true_iff_warning_node_unguarded_fails :
  ¬ (((runChecks (fresh one_cube None)).1 = Ok true ↔
        ∃ node, node ∈ DepthFirstIterator one_cube ∧ warning_node None node)
     ∧ (¬ (∃ node, node ∈ DepthFirstIterator one_cube ∧ warning_node None node) →
        (runChecks (fresh one_cube None)).1 = Ok false))
  ∧ ¬ (((runChecks (fresh one_hollow (Some stack_abs))).1 = Ok true ↔
          ∃ node, node ∈ DepthFirstIterator one_hollow
                  ∧ warning_node (Some stack_abs) node)
       ∧ (¬ (∃ node, node ∈ DepthFirstIterator one_hollow
                     ∧ warning_node (Some stack_abs) node) →
          (runChecks (fresh one_hollow (Some stack_abs))).1 = Ok false)).
Proof.
  split.
  - intros [_ Hfalse].
    assert (Hrun : (runChecks (fresh one_cube None)).1 = KeyError (Some "0"))
      by (vm_compute; reflexivity).
    rewrite Hrun in Hfalse.
    assert (Hno : ¬ ∃ node, node ∈ DepthFirstIterator one_cube
                            ∧ warning_node None node).
    { intros (node & _ & _ & (s & Hs & _) & _). discriminate Hs. }
    specialize (Hfalse Hno). discriminate Hfalse.
  - intros [_ Hfalse].
    assert (Hrun : (runChecks (fresh one_hollow (Some stack_abs))).1
                   = AttributeError "width") by (vm_compute; reflexivity).
    rewrite Hrun in Hfalse.
    assert (Hno : ¬ ∃ node, node ∈ DepthFirstIterator one_hollow
                            ∧ warning_node (Some stack_abs) node).
    { intros (node & Hin & Hw).
      assert (Hdec : bool_decide (warning_node (Some stack_abs) node) = false).
      { simpl in Hin. apply elem_of_cons in Hin as [-> | Hin];
          [vm_compute; reflexivity|].
        apply elem_of_cons in Hin as [-> | Hin]; [vm_compute; reflexivity|].
        by apply not_elem_of_nil in Hin. }
      apply bool_decide_eq_false in Hdec. exact (Hdec Hw). }
    specialize (Hfalse Hno). discriminate Hfalse.
Qed.

(** C3, as the code has it.  Provided the extruder position of every
    sliceable node is a key of the shrinkage dict and every sliceable node
    whose extruder's material shrinks by more than 0.5 has a bounding box,
    [checkObjectsForShrinkage] returns, in traversal order, exactly the
    sliceable nodes whose extruder's material shrinks by more than 0.5 and
    whose bounding box reaches 150 horizontally or 100 vertically; a node is
    in the result if and only if it is in the scene and meets every one of
    these conditions. *)
Theorem checkObjectsForShrinkage_exact (root : SceneTree) (stack : option GlobalStack) :
  Forall (position_known (getMaterialShrinkage stack)) (sliceableNodes root) →
  Forall (λ node, shrink_prone stack node → has_bounding_box node)
         (sliceableNodes root) →
  checkObjectsForShrinkage root stack
    = Ok (filter (warning_node stack) (DepthFirstIterator root))
  ∧ ∀ node, node ∈ filter (warning_node stack) (DepthFirstIterator root) ↔
            node ∈ DepthFirstIterator root
            ∧ sliceable node ∧ shrink_prone stack node ∧ oversized node.
Proof.
  intros Hkeys Hboxes. split.
  - apply checkObjectsForShrinkage_known. by apply examinable_spec.
  - intros node. rewrite list_elem_of_filter. unfold warning_node. tauto.
Qed.

Lemma checkObjectsForShrinkage_exact_witness :
  Forall (position_known (getMaterialShrinkage (Some stack_two)))
         (sliceableNodes workshop)
  ∧ Forall (λ node, shrink_prone (Some stack_two) node → has_bounding_box node)
           (sliceableNodes workshop)
  ∧ checkObjectsForShrinkage workshop (Some stack_two) = Ok [cube; tower].
Proof.
  assert (Hkeys : Forall (position_known (getMaterialShrinkage (Some stack_two)))
                         (sliceableNodes workshop)).
  { apply (bool_decide_unpack _). vm_compute. exact I. }
  assert (Hboxes : Forall (λ node, shrink_prone (Some stack_two) node
                                   → has_bounding_box node)
                          (sliceableNodes workshop)).
  { apply (bool_decide_unpack _). vm_compute. exact I. }
  split; [exact Hkeys|]. split; [exact Hboxes|].
  destruct (checkObjectsForShrinkage_exact workshop (Some stack_two) Hkeys Hboxes)
    as [-> _].
  f_equal.
Defined.

(** C3 as worded fails where the loop raises.  The tower prints with
    extruder "1", the stack only has extruder "0", and the check returns no
    list at all; nor does it return one for a sliceable node of shrinking
    material that has no bounding box. *)
Lemma checkObjectsForShrinkage_exact_unguarded_fails :
  checkObjectsForShrinkage workshop (Some stack_abs)
    ≠ Ok (filter (warning_node (Some stack_abs)) (DepthFirstIterator workshop))
  ∧ checkObjectsForShrinkage one_hollow (Some stack_abs)
      ≠ Ok (filter (warning_node (Some stack_abs)) (DepthFirstIterator one_hollow)).
Proof.
  assert (Hrun : checkObjectsForShrinkage workshop (Some stack_abs)
                 = KeyError (Some "1")) by (vm_compute; reflexivity).
  assert (Hrun' : checkObjectsForShrinkage one_hollow (Some stack_abs)
                  = AttributeError "width") by (vm_compute; reflexivity).
  rewrite Hrun, Hrun'. split; discriminate.
Qed.




(** C6.  Without a global container stack [getMaterialShrinkage] returns
    the empty dict.  With one, the keys of the result are exactly the
    extruder positions of the stack, each mapped to its material's shrinkage
    percentage, or to 0 when the material defines none; in that case the
    comparison against the threshold made for a node printing with that
    extruder is false. *)
Theorem getMaterialShrinkage_spec (stack : option GlobalStack) :
  match stack with
  | None => getMaterialShrinkage stack = ∅
  | Some s =>
      dom (getMaterialShrinkage stack) = dom (extruders s)
      ∧ ∀ position extruder,
          extruders s !! position = Some extruder →
          getMaterialShrinkage stack !! position
            = Some (default 0%Q (material_shrinkage_percentage (material extruder)))
          ∧ (material_shrinkage_percentage (material extruder) = None →
             getitem (getMaterialShrinkage stack) (Some position) = Ok 0%Q
             ∧ Qgtb 0%Q SHRINKAGE_THRESHOLD = false
             ∧ ∀ node, getActiveExtruderPosition node = Some position →
                       flags (getMaterialShrinkage stack) node = false)
  end.
Proof.
  destruct stack as [s|]; [|reflexivity].
  rewrite getMaterialShrinkage_fmap. split; [apply dom_fmap_L|].
  intros position extruder Hlook.
  assert (Hget : (shrinkage_or_zero <$> extruders s) !! position
                 = Some (default 0%Q (material_shrinkage_percentage (material extruder)))).
  { rewrite lookup_fmap, Hlook. simpl. unfold shrinkage_or_zero.
    by destruct (material_shrinkage_percentage (material extruder)). }
  split; [exact Hget|].
  intros Hnone. rewrite Hnone in Hget. simpl in Hget.
  assert (Hitem : getitem (shrinkage_or_zero <$> extruders s) (Some position) = Ok 0%Q)
    by (apply getitem_Ok; eauto).
  split; [exact Hitem|]. split; [reflexivity|].
  intros node Hpos. unfold flags, exceeds. by rewrite Hpos, Hitem.
Qed.

Lemma getMaterialShrinkage_spec_witness :
  extruders stack_mild !! "1" = Some unspecified
  ∧ material_shrinkage_percentage (material unspecified) = None
  ∧ getMaterialShrinkage (Some stack_mild) !! "1" = Some 0%Q.
Proof.
  assert (Hlook : extruders stack_mild !! "1" = Some unspecified)
    by (vm_compute; reflexivity).
  split; [exact Hlook|]. split; [reflexivity|].
  destruct (getMaterialShrinkage_spec (Some stack_mild)) as [_ Hkeys].
  destruct (Hkeys "1" unspecified Hlook) as [Hget _].
  exact Hget.
Defined.

(** ** Claims about the warning text and the unsliceable nodes *)

(** C4.  When the check returns a non-empty list, [runChecks] answers
    [True] and has set the text of the caution message to the catalogue
    entry with the names of exactly those nodes, in order and joined by
    ", ", in place of its [{model_names}] field; when the list is empty it
    answers [False] and the text is what it was. *)
Theorem runChecks_sets_caution_text (st : State) (warning_nodes : list SceneNode) :
  checkObjectsForShrinkage (scene_root (app st)) (global_container_stack (app st))
    = Ok warning_nodes →
  (warning_nodes ≠ [] →
     (runChecks st).1 = Ok true
     ∧ text (_caution_message (self (runChecks st).2))
         = caution_template_before
           +:+ String.concat ", " (map getName warning_nodes)
           +:+ caution_template_after)
  ∧ (warning_nodes = [] →
     (runChecks st).1 = Ok false
     ∧ text (_caution_message (self (runChecks st).2))
         = text (_caution_message (self st))).
Proof.
  intros Hrun. unfold runChecks. rewrite Hrun.
  destruct warning_nodes as [|node rest]; split; intros Hcase; try done.
Qed.

Lemma runChecks_sets_caution_text_witness :
  checkObjectsForShrinkage workshop (Some stack_two) = Ok [cube; tower]
  ∧ text (_caution_message (self (runChecks (fresh workshop (Some stack_two))).2))
      = caution_template_before +:+ "cube, tower" +:+ caution_template_after.
Proof.
  assert (Hrun : checkObjectsForShrinkage workshop (Some stack_two)
                 = Ok [cube; tower]) by (vm_compute; reflexivity).
  split; [exact Hrun|].
  destruct (runChecks_sets_caution_text (fresh workshop (Some stack_two))
              [cube; tower] Hrun) as [Hsome _].
  destruct Hsome as [_ Htext]; [discriminate|].
  exact Htext.
Defined.

Lemma sliceableNodes_same_unless_unsliceable (l l' : list SceneNode) :
  Forall2 same_unless_unsliceable l l' →
  filter (λ node, truthy (isSliceable node) = true) l
    = filter (λ node, truthy (isSliceable node) = true) l'.
Proof.
  induction 1 as [|n n' l l' Hn _ IH]; [done|].
  rewrite !filter_cons, IH.
  destruct Hn as [<- | [Hn Hn']]; [done|].
  unfold sliceable in *.
  destruct (isSliceable n) as [[]|], (isSliceable n') as [[]|]; simpl; done.
Qed.

Lemma checkObjectsForShrinkage_sliceable
    (root : SceneTree) (stack : option GlobalStack) (l : list SceneNode) :
  checkObjectsForShrinkage root stack = Ok l →
  ∀ node, node ∈ l → node ∈ DepthFirstIterator root ∧ warning_node stack node.
Proof.
  intros Hrun node Hin.
  assert (Hall := check_loop_Ok_examinable _ _ _ _ Hrun).
  rewrite (checkObjectsForShrinkage_known _ _ Hall) in Hrun.
  injection Hrun as <-. by apply list_elem_of_filter in Hin as [? ?].
Qed.

(** C5.  Every reported node is sliceable, so a node whose [isSliceable]
    decoration is false or absent is in no warning list.  Replacing such
    nodes by other unsliceable nodes, whatever their extruder position and
    bounding box, changes neither what the check returns nor what
    [runChecks] answers. *)
Theorem unsliceable_nodes_never_reported
    (st : State) (root' : SceneTree) (node : SceneNode) :
  ¬ sliceable node →
  Forall2 same_unless_unsliceable
          (DepthFirstIterator (scene_root (app st))) (DepthFirstIterator root') →
  (∀ l, checkObjectsForShrinkage (scene_root (app st))
                                 (global_container_stack (app st)) = Ok l →
        node ∉ l)
  ∧ checkObjectsForShrinkage root' (global_container_stack (app st))
      = checkObjectsForShrinkage (scene_root (app st))
                                 (global_container_stack (app st))
  ∧ (runChecks (mkState (host_update root' (global_container_stack (app st)) (app st))
                        (self st))).1
      = (runChecks st).1.
Proof.
  intros Hnode Hsame.
  assert (Heq : checkObjectsForShrinkage root' (global_container_stack (app st))
                = checkObjectsForShrinkage (scene_root (app st))
                                           (global_container_stack (app st))).
  { unfold checkObjectsForShrinkage, sliceableNodes.
    by rewrite (sliceableNodes_same_unless_unsliceable _ _ Hsame). }
  split; [|split; [exact Heq|]].
  - intros l Hrun Hin.
    destruct (checkObjectsForShrinkage_sliceable _ _ _ Hrun node Hin)
      as [_ [Hs _]].
    exact (Hnode Hs).
  - rewrite !runChecks_result. simpl. by rewrite Heq.
Qed.

Lemma unsliceable_nodes_never_reported_witness :
  ¬ sliceable plate
  ∧ Forall2 same_unless_unsliceable
            (DepthFirstIterator workshop) (DepthFirstIterator workshop_disguised)
  ∧ checkObjectsForShrinkage workshop_disguised (Some stack_two)
      = checkObjectsForShrinkage workshop (Some stack_two).
Proof.
  assert (Hplate : ¬ sliceable plate) by (intros H; discriminate H).
  assert (Hsame : Forall2 same_unless_unsliceable
            (DepthFirstIterator workshop) (DepthFirstIterator workshop_disguised))
    by (apply (bool_decide_unpack _); vm_compute; exact I).
  split; [exact Hplate|]. split; [exact Hsame|].
  destruct (unsliceable_nodes_never_reported
              (fresh workshop (Some stack_two)) workshop_disguised plate
              Hplate Hsame) as (_ & Heq & _).
  exact Heq.
Defined.

(** ** Claims about the two messages and the state of the checker *)

(** C7.  Each of [showWarningMessage], [showHappyMessage] and
    [showWarnings] hides one message before it shows the other, so after any
    of them the two messages are not both visible. *)
Theorem messages_mutually_exclusive (st : State) :
  (visible (_happy_message (self (showWarningMessage st))) = false
   ∧ visible (_caution_message (self (showWarningMessage st))) = true)
  ∧ (visible (_caution_message (self (showHappyMessage st))) = false
     ∧ visible (_happy_message (self (showHappyMessage st))) = true)
  ∧ ¬ both_visible (showWarningMessage st)
  ∧ ¬ both_visible (showHappyMessage st)
  ∧ ¬ both_visible (showWarnings st).
Proof.
  unfold both_visible.
  repeat split; try reflexivity.
  - intros [H _]. discriminate H.
  - intros [_ H]. discriminate H.
  - unfold showWarnings.
    destruct (_has_warnings _); [intros [H _] | intros [_ H]]; discriminate H.
Qed.

Lemma runChecks_state (st : State) :
  (runChecks st).2 =
    match checkObjectsForShrinkage (scene_root (app st))
                                   (global_container_stack (app st)) with
    | Ok (node :: rest) =>
        mkState (app st)
          (set_caution_message
             (Message_setText
                (format_caution (String.concat ", " (map getName (node :: rest))))
                (_caution_message (self st)))
             (self st))
    | _ => st
    end.
Proof.
  unfold runChecks.
  destruct (checkObjectsForShrinkage _ _) as [[|n l]|k|attribute]; reflexivity.
Qed.

Lemma perform_keeps_has_warnings (c : Call) (st : State) :
  _has_warnings (self (perform c st)) = _has_warnings (self st).
Proof.
  destruct c; simpl; try reflexivity.
  - rewrite runChecks_state.
    by destruct (checkObjectsForShrinkage _ _) as [[|n l]|k|attribute].
  - unfold showWarnings.
    set (st1 := match _button_view (self st) with
                | None => _createView st
                | Some _ => st
                end).
    assert (H1 : _has_warnings (self st1) = _has_warnings (self st))
      by (unfold st1; destruct (_button_view (self st)); reflexivity).
    rewrite <- H1.
    destruct (_has_warnings (self st1)) eqn:E; exact E.
Qed.

Lemma perform_all_keeps_has_warnings (calls : list Call) :
  ∀ st, _has_warnings (self (perform_all calls st)) = _has_warnings (self st).
Proof.
  unfold perform_all.
  induction calls as [|c calls IH]; intros st; simpl; [done|].
  by rewrite IH, perform_keeps_has_warnings.
Qed.

(** C10.  [runChecks] leaves the application (the scene with it), the
    button view, the [_has_warnings] flag, the happy message and the
    visibility, lifetime and title of the caution message as they were; the
    text of the caution message differs afterwards only if the check
    returned a non-empty list.  Whatever calls follow construction,
    [_has_warnings] is still [False]. *)
Theorem runChecks_frame (st : State) (a : Application) (calls : list Call) :
  app (runChecks st).2 = app st
  ∧ _button_view (self (runChecks st).2) = _button_view (self st)
  ∧ _has_warnings (self (runChecks st).2) = _has_warnings (self st)
  ∧ _happy_message (self (runChecks st).2) = _happy_message (self st)
  ∧ visible (_caution_message (self (runChecks st).2))
      = visible (_caution_message (self st))
  ∧ lifetime (_caution_message (self (runChecks st).2))
      = lifetime (_caution_message (self st))
  ∧ title (_caution_message (self (runChecks st).2))
      = title (_caution_message (self st))
  ∧ ((runChecks st).2 = st
     ∨ ∃ node rest,
         checkObjectsForShrinkage (scene_root (app st))
                                  (global_container_stack (app st))
           = Ok (node :: rest))
  ∧ _has_warnings (self (perform_all calls (mkState a init))) = false.
Proof.
  rewrite runChecks_state.
  destruct (checkObjectsForShrinkage _ _) as [[|n l]|k|attribute];
    (repeat split; try reflexivity;
     [ (by left) || (right; eauto) | apply perform_all_keeps_has_warnings ]).
Qed.

(** C2, evaluated.  The cube is a warning node and [runChecks] answers
    [True], yet [showWarnings] called next hides the caution message and
    shows the happy one: it tests [_has_warnings], which nothing sets. *)
Theorem showWarnings_after_positive_check :
  (runChecks (fresh one_cube (Some stack_abs))).1 = Ok true
  ∧ checkObjectsForShrinkage one_cube (Some stack_abs) = Ok [cube]
  ∧ visible (_caution_message
       (self (showWarnings (runChecks (fresh one_cube (Some stack_abs))).2)))
     = false
  ∧ visible (_happy_message
       (self (showWarnings (runChecks (fresh one_cube (Some stack_abs))).2)))
     = true.
Proof. repeat split; vm_compute; reflexivity. Qed.

Lemma showWarnings_always_happy (a : Application) (calls : list Call) :
  let st := perform_all calls (mkState a init) in
  visible (_happy_message (self (showWarnings st))) = true
  ∧ visible (_caution_message (self (showWarnings st))) = false.
Proof.
  intros st. unfold showWarnings.
  assert (Hflag : _has_warnings (self st) = false)
    by apply perform_all_keeps_has_warnings.
  destruct (_button_view (self st)); simpl; rewrite ?Hflag; by split.
Qed.

(** ** The traversal and the trace *)













(** ** Claim about the single pass *)




(** * Further properties of the code *)

(** ** When the check returns and when it raises *)

(** X1.  [checkObjectsForShrinkage] returns a list exactly when the
    extruder position of every sliceable node is a key of the shrinkage
    dict and every sliceable node whose material shrinks by more than 0.5
    has a bounding box, and the list is then the traversal filtered by the
    warning conditions. *)
Theorem checkObjectsForShrinkage_Ok_iff
    (root : SceneTree) (stack : option GlobalStack) (l : list SceneNode) :
  checkObjectsForShrinkage root stack = Ok l ↔
  Forall (position_known (getMaterialShrinkage stack)) (sliceableNodes root)
  ∧ Forall (λ node, shrink_prone stack node → has_bounding_box node)
           (sliceableNodes root)
  ∧ l = filter (warning_node stack) (DepthFirstIterator root).
Proof.
  split.
  - intros Hrun.
    assert (Hall := check_loop_Ok_examinable _ _ _ _ Hrun).
    rewrite (checkObjectsForShrinkage_known _ _ Hall) in Hrun.
    apply examinable_spec in Hall as [Hkeys Hboxes].
    split; [exact Hkeys|]. split; [exact Hboxes|]. by injection Hrun.
  - intros (Hkeys & Hboxes & ->).
    apply checkObjectsForShrinkage_known. by apply examinable_spec.
Qed.

(** X2.  The check raises at the first sliceable node, in traversal
    order, that the loop cannot get through, and what follows that node in
    the scene is never looked at.  It raises [KeyError key] exactly when
    that node's extruder position is not a key of the shrinkage dict, and
    [key] is that position; it raises [AttributeError] exactly when that
    node's position is a key, its material shrinks by more than 0.5 and it
    has no bounding box, and the attribute is [width]. *)
Theorem checkObjectsForShrinkage_first_failure
    (root : SceneTree) (stack : option GlobalStack) :
  (∀ key,
     checkObjectsForShrinkage root stack = KeyError key ↔
     ∃ before culprit after,
       sliceableNodes root = before ++ culprit :: after
       ∧ Forall (position_known (getMaterialShrinkage stack)) before
       ∧ Forall (λ node, shrink_prone stack node → has_bounding_box node) before
       ∧ ¬ position_known (getMaterialShrinkage stack) culprit
       ∧ key = getActiveExtruderPosition culprit)
  ∧ (∀ attribute,
       checkObjectsForShrinkage root stack = AttributeError attribute ↔
       ∃ before culprit after,
         sliceableNodes root = before ++ culprit :: after
         ∧ Forall (position_known (getMaterialShrinkage stack)) before
         ∧ Forall (λ node, shrink_prone stack node → has_bounding_box node) before
         ∧ position_known (getMaterialShrinkage stack) culprit
         ∧ shrink_prone stack culprit
         ∧ getBoundingBox culprit = None
         ∧ attribute = "width").
Proof.
  unfold checkObjectsForShrinkage.
  set (ms := getMaterialShrinkage stack). set (nodes := sliceableNodes root).
  assert (Hraise : ∀ outcome, check_loop ms nodes [] = outcome →
            (∀ l, outcome ≠ Ok l) →
            ∃ before culprit after,
              nodes = before ++ culprit :: after
              ∧ Forall (examinable ms) before
              ∧ ((¬ position_known ms culprit
                  ∧ outcome = KeyError (getActiveExtruderPosition culprit))
                 ∨ (position_known ms culprit
                    ∧ exceeds ms culprit = true ∧ getBoundingBox culprit = None
                    ∧ outcome = AttributeError "width"))).
  { intros outcome Hrun Hnot.
    destruct (decide (Forall (examinable ms) nodes)) as [Hall|Hall].
    - exfalso. rewrite (check_loop_known _ _ _ Hall) in Hrun.
      by eapply Hnot.
    - destruct (check_loop_raises ms nodes [] Hall)
        as (b & c & a & Hsplit & Hb & Hcase).
      exists b, c, a. split; [done|]. split; [done|].
      rewrite Hrun in Hcase. exact Hcase. }
  split.
  - intros key. split.
    + intros Hrun.
      destruct (Hraise _ Hrun ltac:(discriminate))
        as (b & c & a & Hsplit & Hb & [(Hc & Hk) | (_ & _ & _ & Hk)]);
        [|discriminate Hk].
      apply examinable_spec in Hb as [Hkeys Hboxes].
      exists b, c, a. injection Hk as ->. by repeat split.
    + intros (b & c & a & -> & Hkeys & Hboxes & Hc & ->).
      apply check_loop_KeyError; [|exact Hc]. by apply examinable_spec.
  - intros attribute. split.
    + intros Hrun.
      destruct (Hraise _ Hrun ltac:(discriminate))
        as (b & c & a & Hsplit & Hb & [(_ & Hk) | (Hc & He & Hnone & Hk)]);
        [discriminate Hk|].
      apply examinable_spec in Hb as [Hkeys Hboxes].
      apply exceeds_shrink_prone in He.
      exists b, c, a. injection Hk as ->. by repeat split.
    + intros (b & c & a & -> & Hkeys & Hboxes & Hc & Hprone & Hnone & ->).
      apply check_loop_AttributeError; [by apply examinable_spec | exact Hc |].
      apply box_unreadable. split; [by apply exceeds_shrink_prone | exact Hnone].
Qed.

(** X3.  A scene without sliceable nodes passes the check whatever the
    stack is, even when there is none: the list is empty, [runChecks]
    answers [False] and changes nothing. *)
Theorem no_sliceable_nodes_no_warning (st : State) :
  sliceableNodes (scene_root (app st)) = [] →
  checkObjectsForShrinkage (scene_root (app st)) (global_container_stack (app st))
    = Ok []
  ∧ runChecks st = (Ok false, st).
Proof.
  intros Hnone. unfold runChecks, checkObjectsForShrinkage.
  by rewrite Hnone.
Qed.

Lemma no_sliceable_nodes_no_warning_witness :
  sliceableNodes bare_scene = []
  ∧ runChecks (fresh bare_scene None) = (Ok false, fresh bare_scene None).
Proof.
  assert (Hnone : sliceableNodes (scene_root (app (fresh bare_scene None))) = [])
    by (vm_compute; reflexivity).
  split; [exact Hnone|].
  destruct (no_sliceable_nodes_no_warning (fresh bare_scene None) Hnone)
    as [_ Hrun].
  exact Hrun.
Defined.

(** X4.  Indexing the shrinkage dict succeeds exactly when there is a
    global stack, the node has an extruder position and that position is
    one of the stack's extruders; the value is then that extruder's material
    shrinkage, or 0 when the material defines none.  The lookup raises
    nothing but [KeyError]. *)
Theorem material_shrinkage_getitem
    (stack : option GlobalStack) (key : option string) (v : Q) :
  (getitem (getMaterialShrinkage stack) key = Ok v ↔
   ∃ s position extruder,
     stack = Some s ∧ key = Some position
     ∧ extruders s !! position = Some extruder
     ∧ v = default 0%Q (material_shrinkage_percentage (material extruder)))
  ∧ ∀ attribute,
      getitem (getMaterialShrinkage stack) key ≠ AttributeError attribute.
Proof.
  split; [|intros attribute; apply getitem_no_AttributeError].
  rewrite getitem_Ok. split.
  - intros (k & -> & Hlook). rewrite getMaterialShrinkage_lookup in Hlook.
    destruct stack as [s|]; simpl in Hlook; [|done].
    destruct (extruders s !! k) as [e|] eqn:He; simpl in Hlook; [|done].
    injection Hlook as <-. exists s, k, e.
    split; [done|]. split; [done|]. split; [done|].
    unfold shrinkage_or_zero.
    by destruct (material_shrinkage_percentage (material e)).
  - intros (s & k & e & -> & -> & He & ->). exists k. split; [done|].
    rewrite getMaterialShrinkage_lookup. simpl. rewrite He. simpl.
    unfold shrinkage_or_zero.
    by destruct (material_shrinkage_percentage (material e)).
Qed.

(** ** Configurations that cannot warn, and models that grow *)

(** X5.  Let the extruder position of every sliceable node be a key of
    the shrinkage dict.  If no material of the stack shrinks by more than
    0.5, or if every sliceable node has a bounding box that reaches no size
    threshold, the check returns the empty list and [runChecks] answers
    [False], whatever the boxes in the first case and the materials in the
    second. *)
Theorem harmless_configuration_no_warning (st : State) :
  Forall (position_known (getMaterialShrinkage (global_container_stack (app st))))
         (sliceableNodes (scene_root (app st))) →
  (∀ s, global_container_stack (app st) = Some s →
        map_Forall (λ _ extruder,
                      (shrinkage_or_zero extruder <= SHRINKAGE_THRESHOLD)%Q)
                   (extruders s))
  ∨ Forall (λ node, ∃ box, getBoundingBox node = Some box
                           ∧ ¬ reaches_threshold box)
           (sliceableNodes (scene_root (app st))) →
  checkObjectsForShrinkage (scene_root (app st)) (global_container_stack (app st))
    = Ok []
  ∧ (runChecks st).1 = Ok false.
Proof.
  intros Hkeys Hcase.
  set (root := scene_root (app st)) in *.
  set (stack := global_container_stack (app st)) in *.
  assert (Hmild : (∀ s, stack = Some s →
                     map_Forall (λ _ extruder,
                       (shrinkage_or_zero extruder <= SHRINKAGE_THRESHOLD)%Q)
                       (extruders s)) →
                  ∀ node, ¬ shrink_prone stack node).
  { intros Hm node (sh & Hsh & Hlt).
    unfold node_material_shrinkage in Hsh.
    destruct stack as [s|]; simpl in Hsh; [|done].
    destruct (getActiveExtruderPosition node) as [k|]; simpl in Hsh; [|done].
    destruct (extruders s !! k) as [e|] eqn:He; simpl in Hsh; [|done].
    specialize (Hm s eq_refl k e He). simpl in Hm.
    unfold shrinkage_or_zero in Hm. rewrite Hsh in Hm.
    exact (Qlt_not_le _ _ Hlt Hm). }
  assert (Hboxes : Forall (λ node, shrink_prone stack node → has_bounding_box node)
                          (sliceableNodes root)).
  { destruct Hcase as [Hm | Hsmall].
    - apply Forall_forall. intros node _ Hprone. by destruct (Hmild Hm node).
    - eapply Forall_impl; [exact Hsmall|].
      intros node (box & Hbox & _) _. by exists box. }
  assert (Hall := proj2 (examinable_spec _ _) (conj Hkeys Hboxes)).
  pose proof (checkObjectsForShrinkage_known _ _ Hall) as Hrun.
  set (l := filter (warning_node stack) (DepthFirstIterator root)) in *.
  assert (Hnil : l = []).
  { destruct l as [|node rest] eqn:El; [done|]. exfalso.
    assert (Hin : node ∈ l) by (rewrite El; left).
    unfold l in Hin.
    apply list_elem_of_filter in Hin as [(Hs & Hprone & Hbig) Hin].
    destruct Hcase as [Hm | Hsmall].
    - exact (Hmild Hm node Hprone).
    - rewrite Forall_forall in Hsmall.
      destruct (Hsmall node) as (box & Hbox & Hnot);
        [by apply sliceableNodes_spec|].
      destruct Hbig as (box' & Hbox' & Hreach).
      rewrite Hbox in Hbox'. injection Hbox' as <-. exact (Hnot Hreach). }
  rewrite Hnil in Hrun. split; [exact Hrun|].
  rewrite runChecks_result. fold root stack. by rewrite Hrun.
Qed.

Lemma harmless_configuration_no_warning_witness :
  Forall (position_known (getMaterialShrinkage (Some stack_mild)))
         (sliceableNodes workshop)
  ∧ ((∀ s, Some stack_mild = Some s →
         map_Forall (λ _ extruder,
                       (shrinkage_or_zero extruder <= SHRINKAGE_THRESHOLD)%Q)
                    (extruders s))
     ∨ Forall (λ node, ∃ box, getBoundingBox node = Some box
                              ∧ ¬ reaches_threshold box)
              (sliceableNodes workshop))
  ∧ (runChecks (fresh workshop (Some stack_mild))).1 = Ok false.
Proof.
  assert (Hall : Forall (position_known (getMaterialShrinkage (Some stack_mild)))
                        (sliceableNodes workshop))
    by (apply (bool_decide_unpack _); vm_compute; exact I).
  assert (Hcase : (∀ s, Some stack_mild = Some s →
         map_Forall (λ _ extruder,
                       (shrinkage_or_zero extruder <= SHRINKAGE_THRESHOLD)%Q)
                    (extruders s))
     ∨ Forall (λ node, ∃ box, getBoundingBox node = Some box
                              ∧ ¬ reaches_threshold box)
              (sliceableNodes workshop)).
  { left. intros s [= <-]. apply (bool_decide_unpack _). vm_compute. exact I. }
  split; [exact Hall|]. split; [exact Hcase|].
  destruct (harmless_configuration_no_warning
              (fresh workshop (Some stack_mild)) Hall Hcase) as [_ Hanswer].
  exact Hanswer.
Defined.

Lemma grown_flags (ms : gmap string Q) (node node' : SceneNode) :
  grown node node' → flags ms node = true → flags ms node' = true.
Proof.
  intros (Hpos & box & box' & Hbox & Hbox' & Hw & Hd & Hh).
  unfold flags, exceeds. rewrite Hpos, Hbox, Hbox'.
  rewrite !andb_true_iff, !too_large_reaches_threshold. intros [Hs Hbig].
  split; [exact Hs|]. unfold reaches_threshold in *.
  destruct Hbig as [H|[H|H]];
    [left | right; left | right; right]; eapply Qle_trans; eauto.
Qed.

Lemma grown_examinable (ms : gmap string Q) (l l' : list SceneNode) :
  Forall2 grown l l' →
  Forall (examinable ms) l → Forall (examinable ms) l'.
Proof.
  induction 1 as [|n n' l l' (Hpos & box & box' & _ & Hbox' & _) _ IH];
    intros Hall; [constructor|].
  apply Forall_cons in Hall as [[Hn _] Hl]. constructor; [|by apply IH].
  split.
  - unfold position_known in *. by rewrite Hpos.
  - intros _. by exists box'.
Qed.

Lemma grown_filter_length (ms : gmap string Q) (l l' : list SceneNode) :
  Forall2 grown l l' →
  (length (filter (λ node, flags ms node = true) l)
   ≤ length (filter (λ node, flags ms node = true) l'))%nat.
Proof.
  induction 1 as [|n n' l l' Hn _ IH]; [done|].
  rewrite !filter_cons.
  destruct (decide (flags ms n = true)) as [Hf|Hf].
  - rewrite decide_True by (by eapply grown_flags). simpl. lia.
  - destruct (decide (flags ms n' = true)); simpl; lia.
Qed.

(** X6.  Scaling models up never removes a warning: if every sliceable
    node of a second scene prints with the same extruder as its counterpart
    in the first and is at least as wide, deep and high, then a check that
    returns on the first scene returns on the second with at least as many
    warning nodes. *)
Theorem grown_models_keep_warnings
    (root root' : SceneTree) (stack : option GlobalStack) (l : list SceneNode) :
  Forall2 grown (sliceableNodes root) (sliceableNodes root') →
  checkObjectsForShrinkage root stack = Ok l →
  ∃ l', checkObjectsForShrinkage root' stack = Ok l'
        ∧ (length l ≤ length l')%nat.
Proof.
  intros Hgrown Hrun. unfold checkObjectsForShrinkage in *.
  assert (Hall := check_loop_Ok_examinable _ _ _ _ Hrun).
  rewrite (check_loop_known _ _ _ Hall) in Hrun. injection Hrun as <-.
  rewrite (check_loop_known _ _ _ (grown_examinable _ _ _ Hgrown Hall)).
  eexists. split; [done|]. simpl. by apply grown_filter_length.
Qed.

Lemma grown_models_keep_warnings_witness :
  Forall2 grown (sliceableNodes workshop) (sliceableNodes workshop_grown)
  ∧ checkObjectsForShrinkage workshop (Some stack_two) = Ok [cube; tower]
  ∧ ∃ l', checkObjectsForShrinkage workshop_grown (Some stack_two) = Ok l'
          ∧ (2 ≤ length l')%nat.
Proof.
  assert (Hgrown : Forall2 grown (sliceableNodes workshop)
                                 (sliceableNodes workshop_grown))
    by (apply (bool_decide_unpack _); vm_compute; exact I).
  assert (Hrun : checkObjectsForShrinkage workshop (Some stack_two)
                 = Ok [cube; tower]) by (vm_compute; reflexivity).
  split; [exact Hgrown|]. split; [exact Hrun|].
  exact (grown_models_keep_warnings workshop workshop_grown (Some stack_two)
           [cube; tower] Hgrown Hrun).
Defined.

(** ** How the calls compose *)

(** X7.  Reading [runChecks] a second time gives the same answer and
    leaves the state as the first reading left it. *)
Theorem runChecks_idempotent (st : State) :
  runChecks (runChecks st).2 = runChecks st.
Proof.
  destruct st as [a [view flag happy [t lf ti v]]].
  unfold runChecks. simpl.
  remember (checkObjectsForShrinkage (scene_root a) (global_container_stack a))
    as outcome eqn:E.
  destruct outcome as [[|node rest]|key|attribute]; simpl; rewrite <- E; reflexivity.
Qed.

Lemma perform_all_invariant (allowed : Call → Prop) (inv : State → Prop) :
  (∀ c st, allowed c → inv st → inv (perform c st)) →
  ∀ calls st, Forall allowed calls → inv st → inv (perform_all calls st).
Proof.
  intros Hstep. unfold perform_all.
  induction calls as [|c calls IH]; intros st Hall Hinv; [done|].
  apply Forall_cons in Hall as [Hc Hall]. simpl. apply IH; [done|].
  by apply Hstep.
Qed.

Lemma runChecks_self (st : State) :
  ∃ new_text,
    self (runChecks st).2
      = set_caution_message
          (Message_setText new_text (_caution_message (self st))) (self st)
    ∧ (new_text = text (_caution_message (self st))
       ∨ ∃ warning_nodes : list SceneNode,
           warning_nodes ≠ []
           ∧ new_text = format_caution (String.concat ", " (map getName warning_nodes))).
Proof.
  destruct st as [a [view flag happy [t lf ti v]]].
  rewrite runChecks_state. simpl.
  destruct (checkObjectsForShrinkage _ _) as [[|node rest]|key|attribute]; simpl.
  - exists t. split; [done | by left].
  - eexists. split; [done|]. right. by exists (node :: rest).
  - exists t. split; [done | by left].
  - exists t. split; [done | by left].
Qed.

Lemma perform_keeps_exclusive (c : Call) (st : State) :
  ¬ both_visible st → ¬ both_visible (perform c st).
Proof.
  unfold both_visible. intros Hinv.
  destruct c; simpl; try exact Hinv.
  - destruct (runChecks_self st) as (new_text & -> & _). exact Hinv.
  - unfold showWarnings.
    destruct (_has_warnings _); [intros [H _] | intros [_ H]]; discriminate H.
  - intros [H _]. discriminate H.
  - intros [_ H]. discriminate H.
Qed.

(** X8.  From construction on, whatever the host calls and however it
    changes the scene and the stack in between, the happy message and the
    caution message are never visible together. *)
Theorem never_both_messages_visible (a : Application) (calls : list Call) :
  ¬ both_visible (perform_all calls (mkState a init)).
Proof.
  apply (perform_all_invariant (λ _, True) (λ st, ¬ both_visible st)).
  - intros c st _. apply perform_keeps_exclusive.
  - by apply Forall_true.
  - intros [H _]. discriminate H.
Qed.

Lemma perform_keeps_caution_hidden (c : Call) (st : State) :
  is_showWarningMessage c = false →
  visible (_caution_message (self st)) = false ∧ _has_warnings (self st) = false →
  visible (_caution_message (self (perform c st))) = false
  ∧ _has_warnings (self (perform c st)) = false.
Proof.
  intros Hc [Hvis Hflag].
  split; [|by rewrite perform_keeps_has_warnings].
  destruct c; simpl; try exact Hvis; try discriminate Hc; try reflexivity.
  - destruct (runChecks_self st) as (new_text & -> & _). exact Hvis.
  - unfold showWarnings.
    set (st1 := match _button_view (self st) with
                | None => _createView st
                | Some _ => st
                end).
    assert (H1 : _has_warnings (self st1) = false)
      by (unfold st1; destruct (_button_view (self st)); exact Hflag).
    by rewrite H1.
Qed.

(** X9.  Unless [showWarningMessage] is called directly, the caution
    message never becomes visible: no sequence of the other calls, with any
    scenes and stacks and any number of positive checks, shows it. *)
Theorem caution_message_never_shown (a : Application) (calls : list Call) :
  Forall (λ c, is_showWarningMessage c = false) calls →
  visible (_caution_message (self (perform_all calls (mkState a init)))) = false.
Proof.
  intros Hcalls.
  apply (perform_all_invariant
           (λ c, is_showWarningMessage c = false)
           (λ st, visible (_caution_message (self st)) = false
                  ∧ _has_warnings (self st) = false)
           perform_keeps_caution_hidden calls (mkState a init) Hcalls).
  by split.
Qed.

Lemma caution_message_never_shown_witness :
  Forall (λ c, is_showWarningMessage c = false)
         [Call_pluginsInitialized; Host_update workshop (Some stack_two);
          Call_runChecks; Call_showWarnings]
  ∧ (runChecks (mkState (blank_app workshop (Some stack_two)) init)).1 = Ok true
  ∧ visible (_caution_message (self (perform_all
       [Call_pluginsInitialized; Host_update workshop (Some stack_two);
        Call_runChecks; Call_showWarnings]
       (mkState (blank_app bare_scene None) init)))) = false.
Proof.
  assert (Hcalls : Forall (λ c, is_showWarningMessage c = false)
         [Call_pluginsInitialized; Host_update workshop (Some stack_two);
          Call_runChecks; Call_showWarnings])
    by (repeat constructor).
  split; [exact Hcalls|]. split; [vm_compute; reflexivity|].
  exact (caution_message_never_shown (blank_app bare_scene None) _ Hcalls).
Defined.

Lemma perform_keeps_messages_as_built (c : Call) (st : State) :
  messages_as_built st → messages_as_built (perform c st).
Proof.
  unfold messages_as_built. intros Hinv.
  destruct c; simpl; try exact Hinv.
  - destruct (runChecks_self st) as (new_text & -> & Hnew). simpl.
    destruct Hinv as (H1 & H2 & H3 & H4 & H5 & H6).
    repeat (split; [assumption|]).
    destruct Hnew as [-> | Hnew]; [exact H6 | by right].
  - unfold showWarnings.
    destruct (_button_view (self st)), (_has_warnings _); exact Hinv.
Qed.

(** X10.  From construction on, the happy message keeps its text, its
    lifetime of 5 and its title, the caution message keeps its lifetime of 0
    and its title, and the text of the caution message is either empty or
    the catalogue entry filled with the names of a non-empty list of nodes. *)
Theorem messages_stay_as_built (a : Application) (calls : list Call) :
  messages_as_built (perform_all calls (mkState a init)).
Proof.
  apply (perform_all_invariant (λ _, True) messages_as_built).
  - intros c st _. apply perform_keeps_messages_as_built.
  - by apply Forall_true.
  - unfold messages_as_built. simpl. repeat (split; [reflexivity|]). by left.
Qed.

Lemma perform_keeps_scene (c : Call) (st : State) :
  is_host_update c = false →
  scene_root (app (perform c st)) = scene_root (app st)
  ∧ global_container_stack (app (perform c st)) = global_container_stack (app st)
  ∧ createQmlComponent (app (perform c st)) = createQmlComponent (app st).
Proof.
  intros Hc. destruct c; simpl; try done.
  - rewrite runChecks_state.
    by destruct (checkObjectsForShrinkage _ _) as [[|n l]|k|attribute].
  - unfold showWarnings.
    by destruct (_button_view (self st)), (_has_warnings _).
Qed.

(** X11.  No call of the checker changes the scene or the stack, so as
    long as the host does not change them either, [runChecks] keeps giving
    the same answer, whichever popups were shown and views created in
    between. *)
Theorem answer_stable_between_host_updates (st : State) (calls : list Call) :
  Forall (λ c, is_host_update c = false) calls →
  scene_root (app (perform_all calls st)) = scene_root (app st)
  ∧ global_container_stack (app (perform_all calls st))
      = global_container_stack (app st)
  ∧ (runChecks (perform_all calls st)).1 = (runChecks st).1.
Proof.
  intros Hcalls.
  assert (Hsame :
    scene_root (app (perform_all calls st)) = scene_root (app st)
    ∧ global_container_stack (app (perform_all calls st))
        = global_container_stack (app st)).
  { apply (perform_all_invariant
             (λ c, is_host_update c = false)
             (λ st', scene_root (app st') = scene_root (app st)
                     ∧ global_container_stack (app st')
                         = global_container_stack (app st)));
      [|exact Hcalls|done].
    intros c st' Hc [Hroot Hstack].
    destruct (perform_keeps_scene c st' Hc) as (-> & -> & _). done. }
  destruct Hsame as [Hroot Hstack]. split; [exact Hroot|]. split; [exact Hstack|].
  rewrite !runChecks_result. by rewrite Hroot, Hstack.
Qed.

Lemma answer_stable_between_host_updates_witness :
  Forall (λ c, is_host_update c = false)
         [Call_showWarnings; Call_showWarningMessage; Call_runChecks; Call_createView]
  ∧ (runChecks (perform_all
       [Call_showWarnings; Call_showWarningMessage; Call_runChecks; Call_createView]
       (fresh workshop (Some stack_two)))).1 = Ok true.
Proof.
  assert (Hcalls : Forall (λ c, is_host_update c = false)
         [Call_showWarnings; Call_showWarningMessage; Call_runChecks; Call_createView])
    by (repeat constructor).
  split; [exact Hcalls|].
  destruct (answer_stable_between_host_updates
              (fresh workshop (Some stack_two)) _ Hcalls) as (_ & _ & ->).
  vm_compute. reflexivity.
Defined.

(** ** The button view *)

(** X12.  [showWarnings] creates the view only when there is none.  With
    no view yet and a component that can be created, it stores the
    component, registers it once under "jobSpecsButton" and logs two lines;
    a second [showWarnings] then leaves the application untouched. *)
Theorem showWarnings_creates_view_once (st : State) (view : QmlComponent) :
  _button_view (self st) = None →
  createQmlComponent (app st) = Some view →
  _button_view (self (showWarnings st)) = Some view
  ∧ additional_components (app (showWarnings st))
      = additional_components (app st) ++ [("jobSpecsButton", Some view)]
  ∧ logged (app (showWarnings st))
      = logged (app st) ++ [("d", "Creating model checker view.");
                            ("d", "Model checker view created.")]
  ∧ app (showWarnings (showWarnings st)) = app (showWarnings st)
  ∧ _button_view (self (showWarnings (showWarnings st))) = Some view.
Proof.
  destruct st as [[root stack create components lines] [v flag happy caution]].
  simpl. intros -> ->. unfold showWarnings. simpl.
  destruct flag; simpl; rewrite <- ?app_assoc; repeat split; reflexivity.
Qed.

Lemma showWarnings_creates_view_once_witness :
  _button_view (self (fresh workshop None)) = None
  ∧ createQmlComponent (app (fresh workshop None)) = Some (mkQml "ModelChecker.qml")
  ∧ additional_components (app (showWarnings (showWarnings (fresh workshop None))))
      = [("jobSpecsButton", Some (mkQml "ModelChecker.qml"))].
Proof.
  assert (Hnone : _button_view (self (fresh workshop None)) = None) by reflexivity.
  assert (Hcreate : createQmlComponent (app (fresh workshop None))
                    = Some (mkQml "ModelChecker.qml")) by reflexivity.
  split; [exact Hnone|]. split; [exact Hcreate|].
  destruct (showWarnings_creates_view_once (fresh workshop None) _ Hnone Hcreate)
    as (_ & Hcomponents & _ & -> & _).
  exact Hcomponents.
Defined.

Lemma showWarnings_without_view (st : State) :
  _button_view (self st) = None →
  createQmlComponent (app st) = None →
  _button_view (self (showWarnings st)) = None
  ∧ createQmlComponent (app (showWarnings st)) = None
  ∧ additional_components (app (showWarnings st))
      = additional_components (app st) ++ [("jobSpecsButton", None)].
Proof.
  destruct st as [[root stack create components lines] [v flag happy caution]].
  simpl. intros -> ->. unfold showWarnings. simpl.
  destruct flag; repeat split; reflexivity.
Qed.

(** X13.  When the component cannot be created the view stays unset, so
    every [showWarnings] tries again and registers one more empty component
    under "jobSpecsButton": after [n] calls there are [n] more. *)
Theorem showWarnings_retries_failed_view (st : State) (n : nat) :
  _button_view (self st) = None →
  createQmlComponent (app st) = None →
  _button_view (self (Nat.iter n showWarnings st)) = None
  ∧ additional_components (app (Nat.iter n showWarnings st))
      = additional_components (app st) ++ replicate n ("jobSpecsButton", None).
Proof.
  intros Hview Hcreate.
  assert (Hiter :
    _button_view (self (Nat.iter n showWarnings st)) = None
    ∧ createQmlComponent (app (Nat.iter n showWarnings st)) = None
    ∧ additional_components (app (Nat.iter n showWarnings st))
        = additional_components (app st) ++ replicate n ("jobSpecsButton", None)).
  { induction n as [|n (IHview & IHcreate & IHcomponents)]; simpl.
    - by rewrite app_nil_r.
    - destruct (showWarnings_without_view _ IHview IHcreate) as (-> & -> & ->).
      split; [done|]. split; [done|].
      rewrite IHcomponents, <- app_assoc. f_equal.
      change (replicate n ("jobSpecsButton", @None QmlComponent)
              ++ [("jobSpecsButton", None)]
              = replicate (S n) ("jobSpecsButton", None)).
      by rewrite replicate_S_end. }
  destruct Hiter as (H1 & _ & H3). by split.
Qed.

Lemma showWarnings_retries_failed_view_witness :
  _button_view (self (mkState (headless_app workshop None) init)) = None
  ∧ createQmlComponent (app (mkState (headless_app workshop None) init)) = None
  ∧ additional_components
      (app (Nat.iter 3 showWarnings (mkState (headless_app workshop None) init)))
      = replicate 3 ("jobSpecsButton", None).
Proof.
  assert (Hview : _button_view (self (mkState (headless_app workshop None) init))
                  = None) by reflexivity.
  assert (Hcreate : createQmlComponent
                      (app (mkState (headless_app workshop None) init)) = None)
    by reflexivity.
  split; [exact Hview|]. split; [exact Hcreate|].
  destruct (showWarnings_retries_failed_view _ 3 Hview Hcreate) as [_ ->].
  reflexivity.
Defined.
